(** * Dynamic metadata filtering for a knowledge base: the filter pipeline

    A shallow embedding of the Python cells of
    [dynamic_metadata_filtering_kb.ipynb]:

    - the pre-validator [ExtractedEntities.remove_duplicates],
    - the scan of the model response in [extract_entities],
    - the filter compiler [construct_metadata_filter],
    - the retrieval request built by [process_query].

    Python objects are dynamically typed, so entity fields are embedded as
    Python values ([pyval]) together with the three language operations the
    code applies to them: truthiness, [==]/[!=] and the built-in [int].
    Exceptions are an error monad ([result]).  The two [print] calls of the
    notebook write to the cell output only and are left out. *)

From Stdlib Require Import ZArith Ascii String List Bool Permutation Sorted OrderedTypeEx.
From stdpp Require Import base option list strings gmap sorting.

Set Warnings "-register-all".

Open Scope string_scope.
Open Scope list_scope.
Open Scope Z_scope.

(** ** Python values and exceptions *)

(** The scalar values a JSON entity payload can hold in its fields.
    Non-integral numbers and nested arrays or objects are outside the
    tool's declared schema (a string and an integer) and outside this
    model. *)
Inductive pyval : Type :=
  | PyNone
  | PyBool (b : bool)
  | PyInt (z : Z)
  | PyStr (s : string).

Inductive exception : Type :=
  | ValueError
  | TypeError
  | ValidationError
  | ClientError.

(** A computation either returns or raises. *)
Inductive result (A : Type) : Type :=
  | Ok (a : A)
  | Raise (e : exception).
Arguments Ok {A} a.
Arguments Raise {A} e.

#[global] Instance result_ret : MRet result := fun A a => Ok a.
#[global] Instance result_bind : MBind result := fun A B f m =>
  match m with
  | Ok a => f a
  | Raise e => Raise e
  end.
#[global] Instance result_fmap : FMap result := fun A B f m =>
  match m with
  | Ok a => Ok (f a)
  | Raise e => Raise e
  end.

Module Py.

(** [bool(v)]: the truth value tested by [if v] and [not v]. *)
Definition truthy (v : pyval) : bool :=
  match v with
  | PyNone => false
  | PyBool b => b
  | PyInt z => negb (z =? 0)
  | PyStr s => negb (String.eqb s "")
  end.

Definition int_of_bool (b : bool) : Z := if b then 1 else 0.

(** [v == w].  [bool] is a subclass of [int]: [True == 1]. *)
Definition eqb (v w : pyval) : bool :=
  match v, w with
  | PyNone, PyNone => true
  | PyBool a, PyBool b => Bool.eqb a b
  | PyBool a, PyInt z => int_of_bool a =? z
  | PyInt z, PyBool b => z =? int_of_bool b
  | PyInt a, PyInt b => a =? b
  | PyStr a, PyStr b => String.eqb a b
  | _, _ => false
  end.

(** [v != w]. *)
Definition neb (v w : pyval) : bool := negb (eqb v w).

(** *** The built-in [int] on a string (ASCII, base 10) *)

(** The model is exact on ASCII arguments under the interpreter's default
    limit on the number of digits.  Arguments with characters beyond
    ASCII (for which [int] also accepts the other Unicode spaces and
    decimal digits) are outside it. *)

(** Characters [int] skips at both ends of an ASCII argument: tab, line
    feed, vertical tab, form feed, carriage return and space. *)
Definition is_space (c : ascii) : bool :=
  let n := nat_of_ascii c in
  ((9 <=? n) && (n <=? 13) || (n =? 32))%nat.

Definition digit_of (c : ascii) : option Z :=
  let n := Z.of_nat (nat_of_ascii c) in
  if (48 <=? n) && (n <=? 57) then Some (n - 48) else None.

Fixpoint lstrip (s : list ascii) : list ascii :=
  match s with
  | c :: s' => if is_space c then lstrip s' else s
  | [] => []
  end.

Definition strip (s : list ascii) : list ascii :=
  rev (lstrip (rev (lstrip s))).

(** Digits, with single underscores allowed between two digits.
    [after_digit] tells whether the previous character was a digit. *)
Fixpoint digits (acc : Z) (after_digit : bool) (s : list ascii) : option Z :=
  match s with
  | [] => if after_digit then Some acc else None
  | c :: s' =>
      if Ascii.eqb c "_"%char then
        if after_digit then digits acc false s' else None
      else
        match digit_of c with
        | Some d => digits (10 * acc + d) true s'
        | None => None
        end
  end.

(** The default of [sys.get_int_max_str_digits()]: a string with more
    digits is rejected with a [ValueError]. *)
Definition int_max_str_digits : Z := 4300.

Definition digit_count (s : list ascii) : Z :=
  Z.of_nat (length (List.filter (fun c => match digit_of c with
                                         | Some _ => true
                                         | None => false
                                         end) s)).

Definition magnitude (s : list ascii) : option Z :=
  if int_max_str_digits <? digit_count s then None else digits 0 false s.

Definition int_of_str (s : string) : option Z :=
  match strip (list_ascii_of_string s) with
  | c :: s' =>
      if Ascii.eqb c "-"%char then Z.opp <$> magnitude s'
      else if Ascii.eqb c "+"%char then magnitude s'
      else magnitude (c :: s')
  | [] => None
  end.

(** [int(v)]. *)
Definition int (v : pyval) : result Z :=
  match v with
  | PyNone => Raise TypeError
  | PyBool b => Ok (int_of_bool b)
  | PyInt z => Ok z
  | PyStr s =>
      match int_of_str s with
      | Some z => Ok z
      | None => Raise ValueError
      end
  end.

End Py.

(** ** Entity schema *)

(** [class Entity(BaseModel)].  The annotations [Optional[str]] and
    [Optional[int]] are enforced by the validation library when an entity is
    parsed, not by the language, and the compiler below itself compares
    [Year] with a string and passes it to [int]; the fields are therefore
    Python values, with [PyNone] for an absent field. *)
Record Entity : Type := mkEntity {
  Publisher : pyval;
  Year : pyval
}.

(** [class ExtractedEntities(BaseModel)]. *)
Record ExtractedEntities : Type := mkExtractedEntities {
  entities : list Entity
}.

(** ** Filter expressions *)

(** A leaf [{"<operator>": {"key": k, "value": v}}]. *)
Inductive predicate : Type :=
  | equals (key : string) (value : pyval)
  | greaterThanOrEquals (key : string) (value : pyval).

(** The dictionary [{"andAll": [...]}]. *)
Record metadata_filter : Type := mkFilter {
  andAll : list predicate
}.

Definition append (f : metadata_filter) (p : predicate) : metadata_filter :=
  {| andAll := andAll f ++ [p] |}.

Definition unknown : pyval := PyStr "unknown".

(** [construct_metadata_filter(extracted_entities)]. *)
Definition construct_metadata_filter (extracted_entities : option ExtractedEntities)
  : result (option metadata_filter) :=
  match extracted_entities with
  | None => Ok None
  | Some ee =>
      match entities ee with
      | [] => Ok None
      | entity :: _ =>
          let metadata_filter := {| andAll := [] |} in
          let metadata_filter :=
            if Py.truthy (Publisher entity) && Py.neb (Publisher entity) unknown
            then append metadata_filter (equals "Publisher" (Publisher entity))
            else metadata_filter in
          metadata_filter ←
            (if Py.truthy (Year entity) && Py.neb (Year entity) unknown
             then year ← Py.int (Year entity);
                  mret (append metadata_filter
                          (greaterThanOrEquals "Year" (PyInt year)))
             else mret metadata_filter);
          mret (match andAll metadata_filter with
                | [] => None
                | _ :: _ => Some metadata_filter
                end)
      end
  end.

(** The key a leaf predicate constrains, and the leaves of a compiler
    outcome that constrain a given field.  An outcome without a filter
    (no filter returned, or an exception) has no leaves. *)
Definition predicate_key (p : predicate) : string :=
  match p with
  | equals k _ => k
  | greaterThanOrEquals k _ => k
  end.

Definition predicates_for (field : string) (f : metadata_filter) : list predicate :=
  List.filter (fun p => String.eqb (predicate_key p) field) (andAll f).

Definition compiled_predicates (field : string)
    (r : result (option metadata_filter)) : list predicate :=
  match r with
  | Ok (Some f) => predicates_for field f
  | Ok None => []
  | Raise _ => []
  end.

(** The compiler on a sequence with first entity [e]. *)
Definition compile_first (e : Entity) (rest : list Entity)
  : result (option metadata_filter) :=
  construct_metadata_filter (Some (mkExtractedEntities (e :: rest))).

(** The guard the compiler puts on a field: the value is truthy and
    differs from the sentinel. *)
Definition emits (v : pyval) : bool := Py.truthy v && Py.neb v unknown.

(** An entity whose fields have their declared types, [Optional[str]] and
    [Optional[int]]. *)
Definition schema_typed (e : Entity) : bool :=
  match Publisher e, Year e with
  | (PyNone | PyStr _), (PyNone | PyInt _) => true
  | _, _ => false
  end.

(** ** Entity payloads and the duplicate-removing validator *)

(** A raw entity payload: a Python [dict] from field names to scalar
    values, as an association list in insertion order. *)
Definition payload : Type := list (string * pyval).

(** [d.get(k)]. *)
Fixpoint get (k : string) (d : payload) : option pyval :=
  match d with
  | [] => None
  | (k', v) :: d' => if String.eqb k k' then Some v else get k d'
  end.

(** [d[k] = v]: an existing key keeps its position. *)
Fixpoint setitem (k : string) (v : pyval) (d : payload) : payload :=
  match d with
  | [] => [(k, v)]
  | (k', v') :: d' =>
      if String.eqb k k' then (k, v) :: d' else (k', v') :: setitem k v d'
  end.

(** [dict(items)]. *)
Definition dict (items : list (string * pyval)) : payload :=
  fold_left (fun d kv => setitem kv.1 kv.2 d) items [].

(** The keys of a [dict] are pairwise distinct. *)
Definition keys (d : payload) : list string := map fst d.

Fixpoint distinctb (ks : list string) : bool :=
  match ks with
  | [] => true
  | k :: ks' => negb (existsb (String.eqb k) ks') && distinctb ks'
  end.

Definition is_dict (d : payload) : bool := distinctb (keys d).

(** [a < b] on the items [(key, value)] of one dictionary: its keys are
    distinct, so the tuple comparison is decided by the keys, which
    compare by code point. *)
Definition item_ltb (a b : string * pyval) : bool := String.ltb a.1 b.1.

(** [a == b] on items. *)
Definition item_eqb (a b : string * pyval) : bool :=
  String.eqb a.1 b.1 && Py.eqb a.2 b.2.

(** [t == u] on tuples of items. *)
Fixpoint tuple_eqb (t u : list (string * pyval)) : bool :=
  match t, u with
  | [], [] => true
  | a :: t', b :: u' => item_eqb a b && tuple_eqb t' u'
  | _, _ => false
  end.

(** [sorted(items)]: a stable sort. *)
Fixpoint insert_item (a : string * pyval) (l : list (string * pyval))
  : list (string * pyval) :=
  match l with
  | [] => [a]
  | b :: l' => if item_ltb b a then b :: insert_item a l' else a :: b :: l'
  end.

Definition sorted (items : list (string * pyval)) : list (string * pyval) :=
  fold_right insert_item [] items.

(** [t in seen] for the set [seen] of tuples met so far. *)
Definition in_seen (t : list (string * pyval))
    (seen : list (list (string * pyval))) : bool :=
  existsb (tuple_eqb t) seen.

(** One iteration of the loop of [remove_duplicates], on the state
    [(unique_entities, seen)]. *)
Definition remove_duplicates_step
    (st : list payload * list (list (string * pyval))) (entity : payload)
  : list payload * list (list (string * pyval)) :=
  let '(unique_entities, seen) := st in
  let entity_tuple := sorted entity in
  if negb (in_seen entity_tuple seen)
  then (unique_entities ++ [dict entity_tuple], entity_tuple :: seen)
  else (unique_entities, seen).

(** [ExtractedEntities.remove_duplicates(cls, entities)]. *)
Definition remove_duplicates (entities : list payload) : list payload :=
  (fold_left remove_duplicates_step entities ([], [])).1.

(** *** Deduplication as the specification words it *)

(** Every field of [d1] is a field of [d2] with an equal value. *)
Definition fields_included (d1 d2 : payload) : bool :=
  forallb (fun kv => match get kv.1 d2 with
                     | Some w => Py.eqb kv.2 w
                     | None => false
                     end) d1.

(** Structural duplicates: the same field-value pairs, in any order. *)
Definition same_fields (d1 d2 : payload) : bool :=
  fields_included d1 d2 && fields_included d2 d1.

(** The payloads that have no structural duplicate among the payloads
    before them ([earlier] holds the ones already passed). *)
Fixpoint first_occurrences_from (earlier l : list payload) : list payload :=
  match l with
  | [] => []
  | d :: l' =>
      if existsb (same_fields d) earlier
      then first_occurrences_from (d :: earlier) l'
      else d :: first_occurrences_from (d :: earlier) l'
  end.

Definition first_occurrences (l : list payload) : list payload :=
  first_occurrences_from [] l.

(** No two payloads of a sequence are structural duplicates. *)
Fixpoint no_duplicates (l : list payload) : bool :=
  match l with
  | [] => true
  | d :: l' => negb (existsb (same_fields d) l') && no_duplicates l'
  end.

(** *** Relations used to reason about the validator *)

(** The order of items by key. *)
Definition key_lt (a b : string * pyval) : Prop := String.ltb a.1 b.1 = true.

(** [fields_included], on membership instead of lookup. *)
Definition fields_sub (d1 d2 : payload) : Prop :=
  forall k v, In (k, v) d1 -> exists w, In (k, w) d2 /\ Py.eqb v w = true.

(** ** Model responses and the extractor *)

(** JSON documents exchanged with the services. *)
Inductive json : Type :=
  | JScalar (v : pyval)
  | JList (l : list json)
  | JDict (d : list (string * json)).

Definition JStr (s : string) : json := JScalar (PyStr s).
Definition JInt (z : Z) : json := JScalar (PyInt z).

(** Truth value of a document. *)
Definition json_truthy (j : json) : bool :=
  match j with
  | JScalar v => Py.truthy v
  | JList [] => false
  | JList (_ :: _) => true
  | JDict [] => false
  | JDict (_ :: _) => true
  end.

(** The [toolUse] member of a content block. *)
Record ToolUse : Type := mkToolUse {
  toolUseId : string;
  name : string;
  input : json
}.

(** A content block of the model's message: a dictionary holding one of
    the members [text], [toolUse], or another one. *)
Inductive ContentBlock : Type :=
  | text (s : string)
  | toolUse (t : ToolUse)
  | otherBlock.

(** [response['output']['message']['content']]. *)
Record ConverseResponse : Type := mkConverseResponse {
  content : list ContentBlock
}.

Record ConverseRequest : Type := mkConverseRequest {
  modelId : string;
  inferenceConfig : json;
  toolConfig : json;
  messages : json
}.

(** The dictionary [tool_properties]. *)
Record ToolProperties : Type := mkToolProperties {
  tool_name : string;
  tool_description : string;
  tool_extract_entities : json;
  tool_extract_property : json;
  tool_entity_description : json
}.

(** The [tool_properties] the notebook defines. *)
Definition tool_properties : ToolProperties :=
  {| tool_name := "extract_entities";
     tool_description :=
       "Extract named entities from the text. If you are not 100% sure of the entity value, use 'unknown'.";
     tool_extract_entities := JList [JScalar (PyStr "Publisher"); JScalar (PyStr "Year")];
     tool_extract_property := JList [JScalar (PyStr "entities")];
     tool_entity_description := JDict [
       ("Publisher", JDict [
          ("type", JScalar (PyStr "string"));
          ("description",
           JScalar (PyStr "The publisher of the game. First alphabet is upper case."))]);
       ("Year", JDict [
          ("type", JScalar (PyStr "integer"));
          ("description", JScalar (PyStr "The year when the game was released."))])] |}.

Definition MODEL_ID : string := "anthropic.claude-3-haiku-20240307-v1:0".

(** The list [tools] built at the head of [extract_entities]. *)
Definition tools (tool_properties : ToolProperties) : json :=
  JList [JDict [("toolSpec", JDict [
    ("name", JStr (tool_name tool_properties));
    ("description", JStr (tool_description tool_properties));
    ("inputSchema", JDict [("json", JDict [
      ("type", JStr "object");
      ("properties", JDict [("entities", JDict [
        ("type", JStr "array");
        ("items", JDict [
          ("type", JStr "object");
          ("properties", tool_entity_description tool_properties);
          ("required", tool_extract_entities tool_properties)])])]);
      ("required", tool_extract_property tool_properties)])])])]].

Definition converse_request (text : string) (tool_properties : ToolProperties)
  : ConverseRequest :=
  {| modelId := MODEL_ID;
     inferenceConfig := JDict [("temperature", JInt 0); ("maxTokens", JInt 4000)];
     toolConfig := JDict [("tools", tools tool_properties)];
     messages := JList [JDict [("role", JStr "user");
                               ("content", JList [JDict [("text", JStr text)]])]] |}.

(** The test of the loop of [extract_entities] on one block,
    ["toolUse" in content and content['toolUse']['name'] == "extract_entities"],
    with the input the block then contributes. *)
Definition tool_input (content : ContentBlock) : option json :=
  match content with
  | toolUse t =>
      if String.eqb (name t) "extract_entities" then Some (input t) else None
  | _ => None
  end.

(** The [for ... break] loop of [extract_entities]: the input of the first
    block that passes the test, if any. *)
Fixpoint scan_content (blocks : list ContentBlock) : option json :=
  match blocks with
  | [] => None
  | content :: rest =>
      match tool_input content with
      | Some json_entities => Some json_entities
      | None => scan_content rest
      end
  end.

(** The request passed to [bedrock_agent_runtime.retrieve]. *)
Record RetrieveRequest : Type := mkRetrieveRequest {
  knowledgeBaseId : string;
  retrievalConfiguration : gmap string (gmap string (option metadata_filter));
  retrievalQuery : gmap string string
}.

Definition retrieve_request (kb_id text : string)
    (metadata_filter : option metadata_filter) : RetrieveRequest :=
  {| knowledgeBaseId := kb_id;
     retrievalConfiguration :=
       {[ "vectorSearchConfiguration" := {[ "filter" := metadata_filter ]} ]};
     retrievalQuery := {[ "text" := text ]} |}.

(** The filter the vector-search configuration of a request carries under
    its key [filter]: [None] when the key is missing, [Some None] when the
    key is bound to [None]. *)
Definition request_filter (req : RetrieveRequest) : option (option metadata_filter) :=
  vsc ← retrievalConfiguration req !! "vectorSearchConfiguration";
  vsc !! "filter".

Section Pipeline.

(** What the notebook takes from outside: the validation of a tool input
    into the entity schema ([ExtractedEntities.parse_obj]), the two
    service clients, and the knowledge-base id. *)
Context {Response : Type}.
Variable parse_obj : json -> result ExtractedEntities.
Variable converse : ConverseRequest -> result ConverseResponse.
Variable retrieve : RetrieveRequest -> result Response.
Variable kb_id : string.

(** The part of [extract_entities] after the model call. *)
Definition extract_from_response (response : ConverseResponse)
  : result (option ExtractedEntities) :=
  match scan_content (content response) with
  | Some json_entities =>
      if json_truthy json_entities
      then Some <$> parse_obj json_entities
      else mret None
  | None => mret None
  end.

(** [extract_entities(text, tool_properties)]. *)
Definition extract_entities (text : string) (tool_properties : ToolProperties)
  : result (option ExtractedEntities) :=
  response ← converse (converse_request text tool_properties);
  extract_from_response response.

(** [process_query(text, tool_properties)]. *)
Definition process_query (text : string) (tool_properties : ToolProperties)
  : result Response :=
  extracted_entities ← extract_entities text tool_properties;
  metadata_filter ← construct_metadata_filter extracted_entities;
  retrieve (retrieve_request kb_id text metadata_filter).

End Pipeline.

(** ** Reading a request back *)

(** [j[k]] on a JSON object, [None] when [j] is no object or lacks [k]. *)
Fixpoint jassoc (k : string) (d : list (string * json)) : option json :=
  match d with
  | [] => None
  | (k', j) :: d' => if String.eqb k k' then Some j else jassoc k d'
  end.

Definition jget (k : string) (j : json) : option json :=
  match j with
  | JDict d => jassoc k d
  | _ => None
  end.

(** The tools a request offers to the model, [toolConfig["tools"]], and the
    name under which each is offered, [tool["toolSpec"]["name"]]. *)
Definition offered_tools (req : ConverseRequest) : list json :=
  match jget "tools" (toolConfig req) with
  | Some (JList l) => l
  | _ => []
  end.

Definition tool_spec_name (tool : json) : option json :=
  spec ← jget "toolSpec" tool; jget "name" spec.

(** ** Scripted services, for closed examples *)

(** A model endpoint that answers every request with [response]. *)
Definition scripted_converse (response : ConverseResponse)
  : ConverseRequest -> result ConverseResponse :=
  fun _ => Ok response.

(** A validation that answers every tool input with [r]. *)
Definition scripted_parse_obj (r : result ExtractedEntities)
  : json -> result ExtractedEntities :=
  fun _ => r.

(** A retrieval endpoint that returns the request it was sent. *)
Definition recording_retrieve : RetrieveRequest -> result RetrieveRequest :=
  fun req => Ok req.

Definition example_query : string :=
  "Provide a list of all video games published by Rockstar Games and released after 2010".

Definition rockstar_input : json :=
  JDict [("entities", JList [JDict [("Publisher", JStr "Rockstar Games");
                                    ("Year", JInt 2010)]])].

Definition other_input : json :=
  JDict [("entities", JList [JDict [("Publisher", JStr "Nintendo");
                                    ("Year", JInt 1999)]])].

Definition rockstar_entities : ExtractedEntities :=
  mkExtractedEntities [mkEntity (PyStr "Rockstar Games") (PyInt 2010)].

(** A response with a text block, a call of another tool, and two calls of
    [extract_entities]. *)
Definition two_calls_response : ConverseResponse :=
  mkConverseResponse
    [text "I will extract the entities.";
     toolUse (mkToolUse "tooluse_0" "lookup_weather" (JDict []));
     toolUse (mkToolUse "tooluse_1" "extract_entities" rockstar_input);
     toolUse (mkToolUse "tooluse_2" "extract_entities" other_input)].

(** A response in which the model declined to call the tool. *)
Definition text_only_response : ConverseResponse :=
  mkConverseResponse [text "I could not find any entity."].

(** Five payloads: the first two hold the same fields in different orders,
    the third and fourth hold equal values ([True == 1]), the fifth repeats
    the second. *)
Definition example_payloads : list payload :=
  [[("Year", PyInt 2010); ("Publisher", PyStr "Rockstar Games")];
   [("Publisher", PyStr "Rockstar Games"); ("Year", PyInt 2010)];
   [("Publisher", PyStr "unknown"); ("Year", PyBool true)];
   [("Publisher", PyStr "unknown"); ("Year", PyInt 1)];
   [("Publisher", PyStr "Rockstar Games"); ("Year", PyInt 2010)]].

(** ** The declared types as a property of the validation *)


(** A tool input whose entity has a Year that is no number, and a response
    that carries it. *)
Definition next_year_input : json :=
  JDict [("entities", JList [JDict [("Publisher", JStr "Rockstar Games");
                                    ("Year", JStr "next year")]])].

Definition next_year_response : ConverseResponse :=
  mkConverseResponse
    [toolUse (mkToolUse "tooluse_1" "extract_entities" next_year_input)].

(** ** The orchestrator with its service calls recorded *)

(** The two outbound calls of the notebook. *)
Inductive call : Type :=
  | converse_call (req : ConverseRequest)
  | retrieve_call (req : RetrieveRequest).

(** A computation that returns or raises, with the calls it issued, in
    order. *)
Record traced (A : Type) : Type := mkTraced {
  calls : list call;
  outcome : result A
}.
Arguments mkTraced {A} calls outcome.
Arguments calls {A} t.
Arguments outcome {A} t.

#[global] Instance traced_ret : MRet traced := fun A a => mkTraced [] (Ok a).
#[global] Instance traced_bind : MBind traced := fun A B f m =>
  match outcome m with
  | Ok a => mkTraced (calls m ++ calls (f a)) (outcome (f a))
  | Raise e => mkTraced (calls m) (Raise e)
  end.

(** A step that issues no call. *)
Definition local {A : Type} (r : result A) : traced A := mkTraced [] r.

Section TracedPipeline.

Context {Response : Type}.
Variable parse_obj : json -> result ExtractedEntities.
Variable converse : ConverseRequest -> result ConverseResponse.
Variable retrieve : RetrieveRequest -> result Response.
Variable kb_id : string.

(** [bedrock.converse(...)]. *)
Definition invoke_converse (req : ConverseRequest) : traced ConverseResponse :=
  mkTraced [converse_call req] (converse req).

(** [bedrock_agent_runtime.retrieve(...)]. *)
Definition invoke_retrieve (req : RetrieveRequest) : traced Response :=
  mkTraced [retrieve_call req] (retrieve req).

(** [extract_entities(text, tool_properties)], calls recorded. *)
Definition extract_entities_traced (text : string) (tool_properties : ToolProperties)
  : traced (option ExtractedEntities) :=
  response ← invoke_converse (converse_request text tool_properties);
  local (extract_from_response parse_obj response).

(** [process_query(text, tool_properties)], calls recorded. *)
Definition process_query_traced (text : string) (tool_properties : ToolProperties)
  : traced Response :=
  extracted_entities ← extract_entities_traced text tool_properties;
  metadata_filter ← local (construct_metadata_filter extracted_entities);
  invoke_retrieve (retrieve_request kb_id text metadata_filter).

End TracedPipeline.

(** * Properties *)

(** ** Python values *)

Example int_samples :
  Py.int (PyStr " 2_010 ") = Ok 2010 /\ Py.int (PyStr "-12") = Ok (-12) /\
  Py.int (PyStr "") = Raise ValueError /\ Py.int (PyStr "1__0") = Raise ValueError /\
  Py.int (PyStr "next year") = Raise ValueError /\ Py.int (PyStr "007") = Ok 7.
Proof. repeat split; reflexivity. Qed.

(** A control character that is no ASCII space is not skipped, and a
    string of more digits than the limit is rejected. *)
Example int_rejects :
  Py.int (PyStr (String (ascii_of_nat 28) "2010")) = Raise ValueError /\
  Py.int (PyStr (string_of_list_ascii (repeat "1"%char 4301))) = Raise ValueError /\
  (exists z, Py.int (PyStr (string_of_list_ascii (repeat "1"%char 4300))) = Ok z).
Proof.
  repeat apply conj; [reflexivity | vm_compute; reflexivity |].
  eexists. vm_compute. reflexivity.
Qed.

Lemma eqb_unknown (v : pyval) : Py.eqb v unknown = true <-> v = unknown.
Proof.
  unfold unknown. destruct v as [| b | z | s]; simpl; try (split; [discriminate | congruence]).
  rewrite String.eqb_eq. split; congruence.
Qed.

Lemma neb_unknown (v : pyval) : Py.neb v unknown = true <-> v <> unknown.
Proof.
  unfold Py.neb. rewrite negb_true_iff, <- not_true_iff_false, eqb_unknown. tauto.
Qed.

Lemma neb_unknown_false : Py.neb unknown unknown = false.
Proof. reflexivity. Qed.

(** ** The filter compiler *)

Section Compiler.

Implicit Types (e : Entity) (rest : list Entity) (p y : pyval).

(** The four outcomes of the compiler on a first entity. *)
Lemma compile_first_cases e rest :
  compile_first e rest =
    match emits (Publisher e), emits (Year e) with
    | true, true =>
        year ← Py.int (Year e);
        Ok (Some {| andAll := [equals "Publisher" (Publisher e);
                               greaterThanOrEquals "Year" (PyInt year)] |})
    | true, false => Ok (Some {| andAll := [equals "Publisher" (Publisher e)] |})
    | false, true =>
        year ← Py.int (Year e);
        Ok (Some {| andAll := [greaterThanOrEquals "Year" (PyInt year)] |})
    | false, false => Ok None
    end.
Proof.
  unfold compile_first, construct_metadata_filter, emits; simpl.
  destruct (Py.truthy (Publisher e) && Py.neb (Publisher e) unknown);
    destruct (Py.truthy (Year e) && Py.neb (Year e) unknown); simpl;
    try reflexivity; destruct (Py.int (Year e)); reflexivity.
Qed.

Lemma emits_true v : emits v = true <-> Py.truthy v = true /\ v <> unknown.
Proof. unfold emits. rewrite andb_true_iff, neb_unknown. tauto. Qed.

Lemma emits_unknown : emits unknown = false.
Proof. reflexivity. Qed.

Lemma emits_falsy v : Py.truthy v = false -> emits v = false.
Proof. unfold emits. intros ->. reflexivity. Qed.

(** C1. The entity {Publisher: "Rockstar Games", Year: 2010} compiles to
    the conjunction of the Publisher equality followed by the Year
    greater-than-or-equals predicate. *)
Theorem C1_rockstar_2010 :
  construct_metadata_filter
    (Some (mkExtractedEntities [mkEntity (PyStr "Rockstar Games") (PyInt 2010)]))
  = Ok (Some {| andAll := [equals "Publisher" (PyStr "Rockstar Games");
                           greaterThanOrEquals "Year" (PyInt 2010)] |}).
Proof. reflexivity. Qed.

(** C3. The compiler returns no filter on no entities: on [None] and on
    an [ExtractedEntities] whose sequence is empty. *)
Theorem C3_empty_input :
  construct_metadata_filter None = Ok None /\
  construct_metadata_filter (Some (mkExtractedEntities [])) = Ok None.
Proof. split; reflexivity. Qed.

(** The zero-predicate case: when neither field passes its guard the
    compiler returns no filter. *)
Lemma compile_zero_predicates e rest :
  emits (Publisher e) = false -> emits (Year e) = false ->
  compile_first e rest = Ok None.
Proof. intros Hp Hy. rewrite compile_first_cases, Hp, Hy. reflexivity. Qed.

(** C4. Whenever the compiler returns a filter, its [andAll] list is not
    empty. *)
Theorem C4_no_empty_conjunction
    (extracted_entities : option ExtractedEntities) (f : metadata_filter) :
  construct_metadata_filter extracted_entities = Ok (Some f) -> andAll f <> [].
Proof.
  destruct extracted_entities as [[[| e rest]] |]; try discriminate.
  change (compile_first e rest = Ok (Some f) -> andAll f <> []).
  rewrite compile_first_cases.
  destruct (emits (Publisher e)), (emits (Year e)); simpl;
    try destruct (Py.int (Year e)); simpl; intros [= <-]; discriminate.
Qed.

Lemma C4_no_empty_conjunction_witness :
  andAll {| andAll := [equals "Publisher" (PyStr "Rockstar Games");
                       greaterThanOrEquals "Year" (PyInt 2010)] |} <> [].
Proof.
  apply (C4_no_empty_conjunction
           (Some (mkExtractedEntities
                    [mkEntity (PyStr "Rockstar Games") (PyInt 2010)]))).
  reflexivity.
Defined.

(** C5. The compiled filter depends on the first entity only: two
    sequences with the same first entity compile alike, whatever the
    later entities are, and overwriting any later entity leaves the
    output unchanged. *)
Theorem C5_first_entity_only e rest rest' :
  construct_metadata_filter (Some (mkExtractedEntities (e :: rest))) =
  construct_metadata_filter (Some (mkExtractedEntities (e :: rest'))) /\
  (forall (i : nat) e',
     construct_metadata_filter
       (Some (mkExtractedEntities (<[S i:=e']> (e :: rest)))) =
     construct_metadata_filter (Some (mkExtractedEntities (e :: rest)))).
Proof. split; [| intros i e']; reflexivity. Qed.

(** Replacing an entity after the first leaves the output unchanged. *)
Corollary compile_update_later (ee : ExtractedEntities) (i : nat) e' :
  (0 < i)%nat ->
  construct_metadata_filter (Some (mkExtractedEntities (<[i:=e']> (entities ee)))) =
  construct_metadata_filter (Some ee).
Proof.
  destruct ee as [[| e rest]]; [reflexivity |].
  destruct i as [| i]; [lia |]. intros _. reflexivity.
Qed.

(** C10. A [Year] equal to the integer 0 and a [Publisher] equal to the
    empty string are treated as absent fields and emit no predicate;
    {Publisher: "Rockstar Games", Year: 0} compiles to the Publisher
    equality alone. *)
Theorem C10_falsy_values_dropped p y rest :
  compile_first (mkEntity p (PyInt 0)) rest = compile_first (mkEntity p PyNone) rest
  /\ compiled_predicates "Year" (compile_first (mkEntity p (PyInt 0)) rest) = []
  /\ compile_first (mkEntity (PyStr "") y) rest = compile_first (mkEntity PyNone y) rest
  /\ compiled_predicates "Publisher" (compile_first (mkEntity (PyStr "") y) rest) = []
  /\ construct_metadata_filter
       (Some (mkExtractedEntities [mkEntity (PyStr "Rockstar Games") (PyInt 0)]))
     = Ok (Some {| andAll := [equals "Publisher" (PyStr "Rockstar Games")] |}).
Proof.
  repeat apply conj.
  - rewrite !compile_first_cases; reflexivity.
  - rewrite compile_first_cases; cbn [Publisher Year].
    change (emits (PyInt 0)) with false. destruct (emits p); reflexivity.
  - rewrite !compile_first_cases; reflexivity.
  - rewrite compile_first_cases; cbn [Publisher Year].
    change (emits (PyStr "")) with false.
    destruct (emits y); [destruct (Py.int y) |]; reflexivity.
  - reflexivity.
Qed.

(** On an entity whose fields have their declared types the compiler
    always returns. *)
Lemma compile_schema_typed_returns e rest :
  schema_typed e = true -> exists r, compile_first e rest = Ok r.
Proof.
  rewrite compile_first_cases. unfold schema_typed.
  destruct e as [[| b | z | s] [| b' | z' | s']];
    cbn [Publisher Year]; try discriminate; intros _;
    unfold emits; simpl;
    repeat match goal with |- context [if ?b then _ else _] => destruct b end;
    simpl; eauto.
Qed.

(** C2, as stated, fails: {Publisher: "Rockstar Games", Year: 0} has a
    present Year other than "unknown", and its filter has no Year
    predicate. *)
Lemma C2_counterexample :
  ~ (forall e rest,
       let r := compile_first e rest in
       (Publisher e = unknown -> compiled_predicates "Publisher" r = []) /\
       (Publisher e = PyNone -> compiled_predicates "Publisher" r = []) /\
       (Publisher e <> PyNone -> Publisher e <> unknown ->
          length (compiled_predicates "Publisher" r) = 1%nat) /\
       (Year e = unknown -> compiled_predicates "Year" r = []) /\
       (Year e = PyNone -> compiled_predicates "Year" r = []) /\
       (Year e <> PyNone -> Year e <> unknown ->
          length (compiled_predicates "Year" r) = 1%nat)).
Proof.
  intros H.
  destruct (H (mkEntity (PyStr "Rockstar Games") (PyInt 0)) [])
    as (_ & _ & _ & _ & _ & Hy).
  discriminate Hy; discriminate.
Qed.

(** C2, amended. For each field of the first entity: a value that is
    "unknown", absent, or falsy (0, the empty string, False) yields no
    predicate for the field; a truthy value other than "unknown" yields
    exactly one predicate for the field, the compiler returning a filter,
    provided the coercion of a guarded Year succeeds. *)
Theorem C2_sentinel_law e rest :
  let r := compile_first e rest in
  (Publisher e = unknown \/ Publisher e = PyNone \/ Py.truthy (Publisher e) = false ->
     compiled_predicates "Publisher" r = []) /\
  (Year e = unknown \/ Year e = PyNone \/ Py.truthy (Year e) = false ->
     compiled_predicates "Year" r = []) /\
  (Py.truthy (Publisher e) = true -> Publisher e <> unknown ->
   emits (Year e) = false \/ (exists z, Py.int (Year e) = Ok z) ->
     exists f, r = Ok (Some f) /\
       predicates_for "Publisher" f = [equals "Publisher" (Publisher e)]) /\
  (forall z, Py.truthy (Year e) = true -> Year e <> unknown ->
   Py.int (Year e) = Ok z ->
     exists f, r = Ok (Some f) /\
       predicates_for "Year" f = [greaterThanOrEquals "Year" (PyInt z)]).
Proof.
  cbv zeta. rewrite compile_first_cases. repeat apply conj.
  - intros Hp.
    assert (emits (Publisher e) = false) as ->.
    { destruct Hp as [-> | [-> | Hp]]; auto using emits_falsy. }
    destruct (emits (Year e)); [destruct (Py.int (Year e)) |]; reflexivity.
  - intros Hy.
    assert (emits (Year e) = false) as ->.
    { destruct Hy as [-> | [-> | Hy]]; auto using emits_falsy. }
    destruct (emits (Publisher e)); reflexivity.
  - intros Ht Hu Hy.
    assert (emits (Publisher e) = true) as -> by (apply emits_true; auto).
    destruct Hy as [-> | [z ->]]; [eauto |].
    destruct (emits (Year e)); simpl; eauto.
  - intros z Ht Hu Hz.
    assert (emits (Year e) = true) as -> by (apply emits_true; auto).
    rewrite Hz. destruct (emits (Publisher e)); simpl; eauto.
Qed.

Lemma C2_sentinel_law_witness :
  compiled_predicates "Publisher"
    (compile_first (mkEntity unknown (PyInt 2015)) []) = [] /\
  (exists f, compile_first (mkEntity unknown (PyInt 2015)) [] = Ok (Some f) /\
     predicates_for "Year" f = [greaterThanOrEquals "Year" (PyInt 2015)]) /\
  (exists f, compile_first (mkEntity (PyStr "Rockstar Games") PyNone) [] = Ok (Some f) /\
     predicates_for "Publisher" f = [equals "Publisher" (PyStr "Rockstar Games")]).
Proof.
  repeat apply conj.
  - apply (C2_sentinel_law (mkEntity unknown (PyInt 2015)) []).
    left; reflexivity.
  - apply (C2_sentinel_law (mkEntity unknown (PyInt 2015)) []);
      [reflexivity | discriminate | reflexivity].
  - apply (C2_sentinel_law (mkEntity (PyStr "Rockstar Games") PyNone) []);
      [reflexivity | discriminate | left; reflexivity].
Defined.

End Compiler.

(** ** The extractor and the orchestrator *)

Lemma tool_input_None (c : ContentBlock) :
  tool_input c = None <->
  forall t, c = toolUse t -> name t <> "extract_entities".
Proof.
  destruct c as [s | t |]; simpl; try (split; [discriminate | reflexivity]).
  destruct (String.eqb_spec (name t) "extract_entities") as [E | E].
  - split; [discriminate |]. intros H. destruct (H t eq_refl E).
  - split; [| reflexivity]. intros _ t' [= <-]. exact E.
Qed.

Lemma tool_input_named (t : ToolUse) :
  name t = "extract_entities" -> tool_input (toolUse t) = Some (input t).
Proof. simpl. intros ->. reflexivity. Qed.

Lemma scan_content_no_match (blocks : list ContentBlock) :
  (forall t, toolUse t ∈ blocks -> name t <> "extract_entities") ->
  scan_content blocks = None.
Proof.
  induction blocks as [| c blocks IH]; intros H; [reflexivity |].
  simpl. replace (tool_input c) with (@None json).
  - apply IH. intros t Ht. apply H. right. exact Ht.
  - symmetry. apply tool_input_None. intros t ->. apply H. left.
Qed.

Lemma scan_content_first_match (pre post : list ContentBlock) (t : ToolUse) :
  (forall t', toolUse t' ∈ pre -> name t' <> "extract_entities") ->
  name t = "extract_entities" ->
  scan_content (pre ++ toolUse t :: post) = Some (input t).
Proof.
  intros Hpre Ht. induction pre as [| c pre IH].
  - simpl. rewrite Ht. reflexivity.
  - cbn [app scan_content]. replace (tool_input c) with (@None json).
    + apply IH. intros t' Ht'. apply Hpre. right. exact Ht'.
    + symmetry. apply tool_input_None. intros t' ->. apply Hpre. left.
Qed.

Section Orchestrator.

Context {Response : Type}.
Variable parse_obj : json -> result ExtractedEntities.
Variable converse : ConverseRequest -> result ConverseResponse.
Variable retrieve : RetrieveRequest -> result Response.
Variable kb_id : string.

(** C9. When no content block of the response is a tool invocation named
    [extract_entities], the extractor returns [None] and raises nothing.
    When there is one, the input of the first such block is the payload:
    it alone decides the result, whatever the blocks after it are. *)
Theorem C9_first_matching_block text tool_properties response :
  converse (converse_request text tool_properties) = Ok response ->
  ((forall t, toolUse t ∈ content response -> name t <> "extract_entities") ->
     extract_entities parse_obj converse text tool_properties = Ok None) /\
  (forall pre t post,
     content response = pre ++ toolUse t :: post ->
     (forall t', toolUse t' ∈ pre -> name t' <> "extract_entities") ->
     name t = "extract_entities" ->
     scan_content (content response) = Some (input t) /\
     extract_entities parse_obj converse text tool_properties =
       if json_truthy (input t) then Some <$> parse_obj (input t) else Ok None).
Proof.
  intros Hresp. unfold extract_entities. rewrite Hresp. cbn [mbind result_bind].
  unfold extract_from_response. split.
  - intros Hno. rewrite scan_content_no_match by exact Hno. reflexivity.
  - intros pre t post -> Hpre Ht.
    rewrite (scan_content_first_match pre post t Hpre Ht). split; reflexivity.
Qed.

(** The orchestrator passes the compiler's output, whatever it is, under
    the key [filter] of the request. *)
Lemma request_filter_present text (metadata_filter : option metadata_filter) :
  request_filter (retrieve_request kb_id text metadata_filter) = Some metadata_filter.
Proof.
  unfold request_filter, retrieve_request. cbn [retrievalConfiguration].
  rewrite lookup_singleton_eq. cbn [mbind option_bind].
  apply lookup_singleton_eq.
Qed.

Lemma process_query_request text tool_properties extracted_entities metadata_filter :
  extract_entities parse_obj converse text tool_properties = Ok extracted_entities ->
  construct_metadata_filter extracted_entities = Ok metadata_filter ->
  process_query parse_obj converse retrieve kb_id text tool_properties =
    retrieve (retrieve_request kb_id text metadata_filter).
Proof.
  intros He Hc. unfold process_query. rewrite He. cbn [mbind result_bind].
  rewrite Hc. reflexivity.
Qed.

(** C7, amended. Whenever the compiler yields no filter, the orchestrator
    issues the retrieval request whose vector-search configuration holds
    the key [filter] bound to [None]; the key is not omitted. *)
Theorem C7_filter_key_bound_to_None text tool_properties extracted_entities :
  extract_entities parse_obj converse text tool_properties = Ok extracted_entities ->
  construct_metadata_filter extracted_entities = Ok None ->
  process_query parse_obj converse retrieve kb_id text tool_properties =
    retrieve (retrieve_request kb_id text None) /\
  request_filter (retrieve_request kb_id text None) = Some None.
Proof.
  intros He Hc. split.
  - exact (process_query_request _ _ _ _ He Hc).
  - apply request_filter_present.
Qed.

End Orchestrator.

Ltac no_match_in_list :=
  let t := fresh "t" in
  let H := fresh "H" in
  intros t H;
  repeat (apply elem_of_cons in H as [H | H]; [try discriminate H |]);
  try (apply elem_of_nil in H; destruct H);
  try (injection H as ->; simpl; discriminate).

Lemma C9_first_matching_block_witness :
  extract_entities (scripted_parse_obj (Ok rockstar_entities))
    (scripted_converse text_only_response) example_query tool_properties = Ok None /\
  (scan_content (content two_calls_response) = Some rockstar_input /\
   extract_entities (scripted_parse_obj (Ok rockstar_entities))
     (scripted_converse two_calls_response) example_query tool_properties
   = Ok (Some rockstar_entities)).
Proof.
  split.
  - apply (proj1 (C9_first_matching_block (scripted_parse_obj (Ok rockstar_entities))
             (scripted_converse text_only_response) example_query tool_properties
             text_only_response eq_refl)); no_match_in_list.
  - apply (proj2 (C9_first_matching_block (scripted_parse_obj (Ok rockstar_entities))
             (scripted_converse two_calls_response) example_query tool_properties
             two_calls_response eq_refl)
             [text "I will extract the entities.";
              toolUse (mkToolUse "tooluse_0" "lookup_weather" (JDict []))]
             (mkToolUse "tooluse_1" "extract_entities" rockstar_input)
             [toolUse (mkToolUse "tooluse_2" "extract_entities" other_input)]);
      [reflexivity | no_match_in_list | reflexivity].
Defined.

(** C7, as stated, fails: when the model declines to call the tool the
    compiler yields no filter, and the request sent to the retrieval
    endpoint has the key [filter], bound to [None]. *)
Lemma C7_counterexample :
  ~ (forall (parse_obj : json -> result ExtractedEntities)
            (converse : ConverseRequest -> result ConverseResponse)
            (retrieve : RetrieveRequest -> result RetrieveRequest)
            (kb_id text : string) (props : ToolProperties)
            (extracted_entities : option ExtractedEntities),
       extract_entities parse_obj converse text props = Ok extracted_entities ->
       construct_metadata_filter extracted_entities = Ok None ->
       exists req,
         process_query parse_obj converse retrieve kb_id text props = retrieve req /\
         request_filter req = None).
Proof.
  intros H.
  destruct (H (scripted_parse_obj (Raise ValidationError))
              (scripted_converse text_only_response) recording_retrieve
              "KB12345678" example_query tool_properties None eq_refl eq_refl)
    as (req & Hreq & Hfilter).
  injection Hreq as <-. discriminate Hfilter.
Qed.

Lemma C7_filter_key_bound_to_None_witness :
  process_query (scripted_parse_obj (Raise ValidationError))
    (scripted_converse text_only_response) recording_retrieve
    "KB12345678" example_query tool_properties
  = recording_retrieve (retrieve_request "KB12345678" example_query None) /\
  request_filter (retrieve_request "KB12345678" example_query None) = Some None.
Proof.
  apply (C7_filter_key_bound_to_None (scripted_parse_obj (Raise ValidationError))
           (scripted_converse text_only_response) recording_retrieve
           "KB12345678" example_query tool_properties None);
    reflexivity.
Defined.

(** ** The duplicate-removing validator *)

(** *** Equality of Python values is an equivalence *)

Lemma py_eqb_refl (v : pyval) : Py.eqb v v = true.
Proof.
  destruct v as [| b | z | s]; simpl;
    auto using Bool.eqb_reflx, Z.eqb_refl, String.eqb_refl.
Qed.

Lemma py_eqb_sym (v w : pyval) : Py.eqb v w = Py.eqb w v.
Proof.
  destruct v, w; simpl;
    auto using Z.eqb_sym, String.eqb_sym.
  destruct b, b0; reflexivity.
Qed.

Lemma py_eqb_trans (u v w : pyval) :
  Py.eqb u v = true -> Py.eqb v w = true -> Py.eqb u w = true.
Proof.
  destruct u, v, w; cbn [Py.eqb]; try discriminate;
    rewrite ?Bool.eqb_true_iff, ?Z.eqb_eq, ?String.eqb_eq;
    unfold Py.int_of_bool; intros; subst; try reflexivity;
    repeat match goal with b : bool |- _ => destruct b end;
    congruence || lia.
Qed.

(** *** The order on keys *)

Lemma ltb_lt (a b : string) : String.ltb a b = true <-> String_as_OT.lt a b.
Proof.
  rewrite <- String_as_OT.cmp_lt. unfold String.ltb, String_as_OT.cmp.
  destruct (String.compare a b); split; congruence.
Qed.

Lemma ltb_irrefl (a : string) : String.ltb a a = false.
Proof.
  apply not_true_iff_false. rewrite ltb_lt. intros H.
  exact (String_as_OT.lt_not_eq a a H eq_refl).
Qed.

Lemma ltb_trans (a b c : string) :
  String.ltb a b = true -> String.ltb b c = true -> String.ltb a c = true.
Proof. rewrite !ltb_lt. apply String_as_OT.lt_trans. Qed.

Lemma ltb_asym (a b : string) :
  String.ltb a b = true -> String.ltb b a = true -> False.
Proof.
  intros H1 H2. pose proof (ltb_trans _ _ _ H1 H2) as H.
  rewrite ltb_irrefl in H. discriminate.
Qed.

Lemma ltb_connected (a b : string) :
  String.ltb a b = false -> a <> b -> String.ltb b a = true.
Proof.
  unfold String.ltb. rewrite (String.compare_antisym a b).
  destruct (String.compare b a) eqn:E; simpl; try congruence.
  apply String.compare_eq_iff in E. congruence.
Qed.

(** *** Dictionaries *)

Lemma distinctb_NoDup (ks : list string) : distinctb ks = true <-> List.NoDup ks.
Proof.
  induction ks as [| k ks IH]; simpl.
  - split; [constructor | reflexivity].
  - rewrite andb_true_iff, negb_true_iff, IH, List.NoDup_cons_iff.
    apply and_iff_compat_r. rewrite <- not_true_iff_false, existsb_exists.
    split; intros H Hin; apply H.
    + exists k. split; [exact Hin | apply String.eqb_refl].
    + destruct Hin as (k' & Hin & E). apply String.eqb_eq in E. congruence.
Qed.

Lemma is_dict_NoDup (d : payload) : is_dict d = true <-> List.NoDup (keys d).
Proof. apply distinctb_NoDup. Qed.

Lemma get_In (k : string) (v : pyval) (d : payload) :
  get k d = Some v -> In (k, v) d.
Proof.
  induction d as [| [k' v'] d IH]; simpl; [discriminate |].
  destruct (String.eqb_spec k k') as [-> | Hne].
  - intros [= ->]. left; reflexivity.
  - intros H. right. exact (IH H).
Qed.

Lemma In_keys (k : string) (v : pyval) (d : payload) : In (k, v) d -> In k (keys d).
Proof. intros H. exact (in_map fst d (k, v) H). Qed.

Lemma In_get (k : string) (v : pyval) (d : payload) :
  List.NoDup (keys d) -> In (k, v) d -> get k d = Some v.
Proof.
  induction d as [| [k' v'] d IH]; simpl; [intros _ [] |].
  rewrite List.NoDup_cons_iff. intros [Hk Hd] [[= -> ->] | Hin].
  - rewrite String.eqb_refl. reflexivity.
  - destruct (String.eqb_spec k k') as [-> | Hne].
    + destruct Hk. exact (In_keys _ _ _ Hin).
    + exact (IH Hd Hin).
Qed.

Lemma fields_included_spec (d1 d2 : payload) :
  List.NoDup (keys d2) -> fields_included d1 d2 = true <-> fields_sub d1 d2.
Proof.
  intros Hd2. unfold fields_included, fields_sub. rewrite forallb_forall. split.
  - intros H k v Hin. specialize (H (k, v) Hin). cbn [fst snd] in H.
    destruct (get k d2) as [w |] eqn:E; [| discriminate].
    exists w. split; [exact (get_In _ _ _ E) | exact H].
  - intros H [k v] Hin. cbn [fst snd].
    destruct (H k v Hin) as (w & Hw & E).
    rewrite (In_get k w d2 Hd2 Hw). exact E.
Qed.

Lemma fields_sub_refl (d : payload) : fields_sub d d.
Proof. intros k v H. exists v. split; [exact H | apply py_eqb_refl]. Qed.

Lemma fields_sub_trans (a b c : payload) :
  fields_sub a b -> fields_sub b c -> fields_sub a c.
Proof.
  intros Hab Hbc k v H.
  destruct (Hab k v H) as (w & Hw & E1). destruct (Hbc k w Hw) as (x & Hx & E2).
  exists x. split; [exact Hx | exact (py_eqb_trans _ _ _ E1 E2)].
Qed.

Lemma fields_sub_perm (a a' b b' : payload) :
  Permutation a a' -> Permutation b b' -> fields_sub a b -> fields_sub a' b'.
Proof.
  intros Pa Pb H k v Hin.
  destruct (H k v (Permutation_in _ (Permutation_sym Pa) Hin)) as (w & Hw & E).
  exists w. split; [exact (Permutation_in _ Pb Hw) | exact E].
Qed.

Lemma same_fields_spec (d1 d2 : payload) :
  List.NoDup (keys d1) -> List.NoDup (keys d2) ->
  same_fields d1 d2 = true <-> fields_sub d1 d2 /\ fields_sub d2 d1.
Proof.
  intros H1 H2. unfold same_fields.
  rewrite andb_true_iff, (fields_included_spec d1 d2 H2), (fields_included_spec d2 d1 H1).
  reflexivity.
Qed.

Lemma same_fields_sym (d1 d2 : payload) : same_fields d1 d2 = same_fields d2 d1.
Proof. apply andb_comm. Qed.

Lemma same_fields_refl (d : payload) : List.NoDup (keys d) -> same_fields d d = true.
Proof. intros H. apply same_fields_spec; auto using fields_sub_refl. Qed.

Lemma same_fields_trans (a b c : payload) :
  List.NoDup (keys a) -> List.NoDup (keys b) -> List.NoDup (keys c) ->
  same_fields a b = true -> same_fields b c = true -> same_fields a c = true.
Proof.
  intros Ha Hb Hc. rewrite !same_fields_spec by assumption.
  intros [H1 H2] [H3 H4]. split; eauto using fields_sub_trans.
Qed.

(** Structural duplicates do not depend on the order of the fields. *)
Lemma same_fields_any_order (d1 d2 : payload) :
  List.NoDup (keys d1) -> Permutation d1 d2 -> same_fields d1 d2 = true.
Proof.
  intros H1 P.
  assert (List.NoDup (keys d2)) as H2.
  { exact (Permutation_NoDup (Permutation_map fst P) H1). }
  apply same_fields_spec; [assumption .. |]. split.
  - exact (fields_sub_perm _ _ _ _ (Permutation_refl d1) P (fields_sub_refl d1)).
  - exact (fields_sub_perm _ _ _ _ P (Permutation_refl d1) (fields_sub_refl d1)).
Qed.

(** *** Sorting the items *)

Lemma insert_item_perm (a : string * pyval) (l : list (string * pyval)) :
  Permutation (insert_item a l) (a :: l).
Proof.
  induction l as [| b l IH]; simpl; [reflexivity |].
  destruct (item_ltb b a); [| reflexivity].
  rewrite IH. apply perm_swap.
Qed.

Lemma sorted_perm (d : payload) : Permutation (sorted d) d.
Proof.
  induction d as [| a d IH]; simpl; [reflexivity |].
  rewrite insert_item_perm. apply perm_skip. exact IH.
Qed.

Lemma sorted_NoDup (d : payload) :
  List.NoDup (keys d) -> List.NoDup (keys (sorted d)).
Proof.
  intros H. apply (Permutation_NoDup (l := keys d)); [| exact H].
  apply Permutation_map, Permutation_sym, sorted_perm.
Qed.

Lemma insert_item_sorted (a : string * pyval) (l : list (string * pyval)) :
  StronglySorted key_lt l -> ~ In a.1 (keys l) ->
  StronglySorted key_lt (insert_item a l).
Proof.
  induction l as [| b l IH]; simpl; intros Hs Hk.
  - repeat constructor.
  - apply StronglySorted_inv in Hs as [Hs Hb].
    unfold item_ltb. destruct (String.ltb b.1 a.1) eqn:E.
    + constructor; [apply IH; tauto |].
      rewrite List.Forall_forall in *. intros x Hx.
      apply (Permutation_in _ (insert_item_perm a l)) in Hx as [<- | Hx];
        [exact E | exact (Hb x Hx)].
    + assert (key_lt a b) as Hab.
      { apply ltb_connected; [exact E |]. intros Heq. apply Hk. left. exact Heq. }
      constructor; [constructor; assumption |].
      constructor; [exact Hab |].
      rewrite List.Forall_forall in *. intros x Hx.
      exact (ltb_trans _ _ _ Hab (Hb x Hx)).
Qed.

Lemma sorted_strongly (d : payload) :
  List.NoDup (keys d) -> StronglySorted key_lt (sorted d).
Proof.
  induction d as [| a d IH]; simpl; [constructor |].
  rewrite List.NoDup_cons_iff. intros [Ha Hd].
  apply insert_item_sorted; [exact (IH Hd) |].
  intros Hin. apply Ha.
  exact (Permutation_in _ (Permutation_map fst (sorted_perm d)) Hin).
Qed.

(** [dict] rebuilds a tuple of items with distinct keys as it is. *)
Lemma setitem_fresh (k : string) (v : pyval) (d : payload) :
  ~ In k (keys d) -> setitem k v d = d ++ [(k, v)].
Proof.
  induction d as [| [k' v'] d IH]; simpl; intros H; [reflexivity |].
  destruct (String.eqb_spec k k') as [-> | Hne]; [tauto |].
  rewrite IH by tauto. reflexivity.
Qed.

Lemma dict_fold (l acc : list (string * pyval)) :
  List.NoDup (keys (acc ++ l)) ->
  fold_left (fun d kv => setitem kv.1 kv.2 d) l acc = acc ++ l.
Proof.
  revert acc. induction l as [| [k v] l IH]; intros acc H; simpl.
  - symmetry. apply app_nil_r.
  - replace (acc ++ (k, v) :: l) with ((acc ++ [(k, v)]) ++ l) in *
      by (rewrite <- app_assoc; reflexivity).
    rewrite setitem_fresh; [apply IH; exact H |].
    unfold keys in H. rewrite !map_app in H.
    apply List.NoDup_app_remove_r in H. apply List.NoDup_remove_2 in H.
    rewrite app_nil_r in H. exact H.
Qed.

Lemma dict_id (l : list (string * pyval)) : List.NoDup (keys l) -> dict l = l.
Proof. intros H. unfold dict. rewrite dict_fold; [reflexivity | exact H]. Qed.

(** *** Equal sorted tuples are structural duplicates, and conversely *)

Lemma tuple_eqb_sym (t u : list (string * pyval)) : tuple_eqb t u = tuple_eqb u t.
Proof.
  revert u. induction t as [| a t IH]; intros [| b u]; simpl; try reflexivity.
  unfold item_eqb. rewrite IH, (String.eqb_sym a.1 b.1), (py_eqb_sym a.2 b.2).
  reflexivity.
Qed.

Lemma tuple_eqb_fields_sub (t u : list (string * pyval)) :
  tuple_eqb t u = true -> fields_sub t u.
Proof.
  revert u. induction t as [| [k v] t IH]; intros [| [k' w] u]; simpl;
    try discriminate.
  - intros _ k v [].
  - unfold item_eqb. cbn [fst snd]. rewrite !andb_true_iff, String.eqb_eq.
    intros [[<- E] H] k0 v0 [[= <- <-] | Hin].
    + exists w. split; [left; reflexivity | exact E].
    + destruct (IH u H k0 v0 Hin) as (x & Hx & Ex).
      exists x. split; [right; exact Hx | exact Ex].
Qed.

Lemma sorted_fields_tuple_eqb (t u : list (string * pyval)) :
  StronglySorted key_lt t -> StronglySorted key_lt u ->
  fields_sub t u -> fields_sub u t -> tuple_eqb t u = true.
Proof.
  revert u. induction t as [| [k v] t IH]; intros [| [k' w] u] Ht Hu Htu Hut.
  - reflexivity.
  - destruct (Hut k' w (or_introl eq_refl)) as (? & [] & _).
  - destruct (Htu k v (or_introl eq_refl)) as (? & [] & _).
  - apply StronglySorted_inv in Ht as [Ht Hk], Hu as [Hu Hk'].
    rewrite List.Forall_forall in Hk, Hk'. unfold key_lt in Hk, Hk'.
    assert (k = k' /\ Py.eqb v w = true) as [<- E].
    { destruct (Htu k v (or_introl eq_refl)) as (x & [[= <- <-] | Hx] & Ex);
        [split; [reflexivity | exact Ex] |].
      destruct (Hut k' w (or_introl eq_refl)) as (y & [[= <- <-] | Hy] & Ey).
      - apply Hk' in Hx. cbn [fst] in Hx. rewrite ltb_irrefl in Hx. discriminate.
      - apply Hk' in Hx. apply Hk in Hy. cbn [fst] in Hx, Hy.
        destruct (ltb_asym _ _ Hx Hy). }
    simpl. unfold item_eqb. cbn [fst snd]. rewrite String.eqb_refl, E. simpl.
    apply IH; try assumption.
    + intros k0 v0 Hin.
      destruct (Htu k0 v0 (or_intror Hin)) as (x & [[= <- <-] | Hx] & Ex);
        [| eauto].
      apply Hk in Hin. cbn [fst] in Hin. rewrite ltb_irrefl in Hin. discriminate.
    + intros k0 v0 Hin.
      destruct (Hut k0 v0 (or_intror Hin)) as (x & [[= <- <-] | Hx] & Ex);
        [| eauto].
      apply Hk' in Hin. cbn [fst] in Hin. rewrite ltb_irrefl in Hin. discriminate.
Qed.

(** The membership test of the loop decides structural duplication. *)
Lemma tuple_eqb_sorted (d1 d2 : payload) :
  List.NoDup (keys d1) -> List.NoDup (keys d2) ->
  tuple_eqb (sorted d1) (sorted d2) = same_fields d1 d2.
Proof.
  intros H1 H2. apply eq_true_iff_eq.
  rewrite (same_fields_spec d1 d2 H1 H2). split.
  - intros E. split.
    + apply (fields_sub_perm (sorted d1) d1 (sorted d2) d2);
        auto using sorted_perm, tuple_eqb_fields_sub.
    + rewrite tuple_eqb_sym in E.
      apply (fields_sub_perm (sorted d2) d2 (sorted d1) d1);
        auto using sorted_perm, tuple_eqb_fields_sub.
  - intros [H12 H21].
    apply sorted_fields_tuple_eqb; auto using sorted_strongly.
    + apply (fields_sub_perm d1 (sorted d1) d2 (sorted d2));
        auto using Permutation_sym, sorted_perm.
    + apply (fields_sub_perm d2 (sorted d2) d1 (sorted d1));
        auto using Permutation_sym, sorted_perm.
Qed.

Lemma fields_sub_sorted_l (d u : payload) : fields_sub (sorted d) u <-> fields_sub d u.
Proof.
  split; apply fields_sub_perm;
    auto using sorted_perm, Permutation_sym, Permutation_refl.
Qed.

Lemma fields_sub_sorted_r (d u : payload) : fields_sub d (sorted u) <-> fields_sub d u.
Proof.
  split; apply fields_sub_perm;
    auto using sorted_perm, Permutation_sym, Permutation_refl.
Qed.

Lemma same_fields_sorted_r (d u : payload) :
  List.NoDup (keys d) -> List.NoDup (keys u) ->
  same_fields d (sorted u) = same_fields d u.
Proof.
  intros Hd Hu. apply eq_true_iff_eq.
  rewrite !same_fields_spec by auto using sorted_NoDup.
  rewrite fields_sub_sorted_l, fields_sub_sorted_r. reflexivity.
Qed.

Lemma same_fields_sorted (d u : payload) :
  List.NoDup (keys d) -> List.NoDup (keys u) ->
  same_fields (sorted d) (sorted u) = same_fields d u.
Proof.
  intros Hd Hu. rewrite same_fields_sorted_r by auto using sorted_NoDup.
  rewrite same_fields_sym, same_fields_sorted_r by assumption.
  apply same_fields_sym.
Qed.

(** *** First occurrences *)

Lemma existsb_false {A : Type} (f : A -> bool) (l : list A) :
  existsb f l = false <-> forall x, In x l -> f x = false.
Proof.
  rewrite <- not_true_iff_false, existsb_exists. split.
  - intros H x Hx. apply not_true_iff_false. intros E. apply H. eauto.
  - intros H (x & Hx & E). rewrite (H x Hx) in E. discriminate.
Qed.

Lemma first_occurrences_In (earlier l : list payload) (d : payload) :
  In d (first_occurrences_from earlier l) -> In d l.
Proof.
  revert earlier. induction l as [| a l IH]; intros earlier; simpl; [tauto |].
  destruct (existsb (same_fields a) earlier); simpl; intros H.
  - right. exact (IH _ H).
  - destruct H as [H | H]; [left; exact H | right; exact (IH _ H)].
Qed.

Lemma first_occurrences_fresh (earlier l : list payload) (d : payload) :
  In d (first_occurrences_from earlier l) ->
  existsb (same_fields d) earlier = false.
Proof.
  revert earlier. induction l as [| a l IH]; intros earlier; simpl; [tauto |].
  assert (In d (first_occurrences_from (a :: earlier) l) ->
          existsb (same_fields d) earlier = false) as Htail.
  { intros H. apply IH in H. simpl in H. apply orb_false_iff in H. tauto. }
  destruct (existsb (same_fields a) earlier) eqn:E; simpl; [exact Htail |].
  intros [<- | H]; [exact E | exact (Htail H)].
Qed.

Lemma first_occurrences_no_duplicates (earlier l : list payload) :
  no_duplicates (first_occurrences_from earlier l) = true.
Proof.
  revert earlier. induction l as [| a l IH]; intros earlier; simpl; [reflexivity |].
  destruct (existsb (same_fields a) earlier); [apply IH |].
  simpl. rewrite IH, andb_true_r, negb_true_iff.
  apply existsb_false. intros x Hx.
  apply first_occurrences_fresh in Hx. simpl in Hx.
  apply orb_false_iff in Hx as [Hx _]. rewrite same_fields_sym. exact Hx.
Qed.

Lemma first_occurrences_cover (earlier l : list payload) :
  Forall (fun d => is_dict d = true) earlier ->
  Forall (fun d => is_dict d = true) l ->
  forall d, In d l ->
    (exists u, In u (first_occurrences_from earlier l) /\ same_fields d u = true) \/
    existsb (same_fields d) earlier = true.
Proof.
  revert earlier. induction l as [| a l IH]; intros earlier He Hl d; [intros [] |].
  apply List.Forall_cons_iff in Hl as [Ha Hl].
  assert (forall u, In u (first_occurrences_from (a :: earlier) l) ->
                    In u (first_occurrences_from earlier (a :: l))) as Hsub.
  { intros u Hu. simpl. destruct (existsb (same_fields a) earlier);
      [exact Hu | right; exact Hu]. }
  intros [<- | Hd].
  - destruct (existsb (same_fields a) earlier) eqn:E; [right; reflexivity |].
    left. exists a. split.
    + simpl. rewrite E. left; reflexivity.
    + apply same_fields_refl, is_dict_NoDup, Ha.
  - destruct (IH (a :: earlier) (List.Forall_cons _ a earlier Ha He) Hl d Hd)
      as [(u & Hu & E) | E]; [left; eauto |].
    simpl in E. apply orb_true_iff in E as [E | E]; [| right; exact E].
    destruct (existsb (same_fields a) earlier) eqn:Ea.
    + right. apply existsb_exists in Ea as (e & Hin & Ee).
      apply existsb_exists. exists e. split; [exact Hin |].
      rewrite List.Forall_forall in He, Hl.
      apply (same_fields_trans d a e); auto; apply is_dict_NoDup; auto.
    + left. exists a. split; [| exact E]. simpl. rewrite Ea. left; reflexivity.
Qed.

(** *** The loop of [remove_duplicates] *)

Lemma remove_duplicates_step_eq (unique_entities : list payload)
    (seen : list (list (string * pyval))) (entity : payload) :
  remove_duplicates_step (unique_entities, seen) entity =
    if in_seen (sorted entity) seen then (unique_entities, seen)
    else (unique_entities ++ [dict (sorted entity)], sorted entity :: seen).
Proof.
  unfold remove_duplicates_step. destruct (in_seen (sorted entity) seen); reflexivity.
Qed.

Lemma remove_duplicates_loop (entities earlier unique_entities : list payload)
    (seen : list (list (string * pyval))) :
  Forall (fun d => is_dict d = true) entities ->
  Forall (fun d => is_dict d = true) earlier ->
  (forall d, is_dict d = true ->
     in_seen (sorted d) seen = existsb (same_fields d) earlier) ->
  (fold_left remove_duplicates_step entities (unique_entities, seen)).1 =
    unique_entities ++ map sorted (first_occurrences_from earlier entities).
Proof.
  revert earlier unique_entities seen.
  induction entities as [| a l IH]; intros earlier acc seen Hl He Hseen.
  - simpl. symmetry. apply app_nil_r.
  - apply List.Forall_cons_iff in Hl as [Ha Hl].
    pose proof (List.Forall_cons _ a earlier Ha He) as He'.
    cbn [fold_left first_occurrences_from].
    rewrite remove_duplicates_step_eq, (Hseen a Ha).
    destruct (existsb (same_fields a) earlier) eqn:E.
    + apply IH; try assumption.
      intros d Hd. rewrite (Hseen d Hd). simpl.
      destruct (same_fields d a) eqn:Eda; [| reflexivity]. simpl.
      apply existsb_exists in E as (e & Hin & Ee).
      apply existsb_exists. exists e. split; [exact Hin |].
      rewrite List.Forall_forall in He.
      apply (same_fields_trans d a e); auto; apply is_dict_NoDup; auto.
    + rewrite (IH (a :: earlier)); try assumption.
      * rewrite dict_id by (apply sorted_NoDup, is_dict_NoDup, Ha).
        rewrite <- app_assoc. reflexivity.
      * intros d Hd. simpl. rewrite (Hseen d Hd).
        rewrite tuple_eqb_sorted by (apply is_dict_NoDup; assumption).
        reflexivity.
Qed.

Lemma remove_duplicates_first_occurrences (entities : list payload) :
  Forall (fun d => is_dict d = true) entities ->
  remove_duplicates entities = map sorted (first_occurrences entities).
Proof.
  intros H. unfold remove_duplicates, first_occurrences.
  rewrite (remove_duplicates_loop entities [] [] []); auto.
Qed.

Lemma no_duplicates_map_sorted (l : list payload) :
  Forall (fun d => is_dict d = true) l ->
  no_duplicates (map sorted l) = no_duplicates l.
Proof.
  induction 1 as [| a l Ha Hl IH]; simpl; [reflexivity |].
  rewrite IH. f_equal. f_equal.
  clear IH. induction Hl as [| b l Hb Hl IH]; simpl; [reflexivity |].
  rewrite IH, same_fields_sorted by (apply is_dict_NoDup; assumption).
  reflexivity.
Qed.

Example remove_duplicates_example :
  remove_duplicates example_payloads =
    [[("Publisher", PyStr "Rockstar Games"); ("Year", PyInt 2010)];
     [("Publisher", PyStr "unknown"); ("Year", PyBool true)]].
Proof. reflexivity. Qed.

(** C6. On a sequence of entity payloads (dictionaries of scalar values),
    [remove_duplicates] keeps exactly the first occurrences, in input
    order, each with its fields in key order; no two kept payloads are
    structural duplicates; every payload of the input has a kept payload
    with the same field-value pairs, and two payloads with the same
    field-value pairs share it.  Values are compared with Python's [==],
    and [same_fields] does not depend on the order of the fields
    ([same_fields_any_order]). *)
Theorem C6_remove_duplicates_keeps_first (entities : list payload) :
  Forall (fun d => is_dict d = true) entities ->
  remove_duplicates entities = map sorted (first_occurrences entities) /\
  no_duplicates (remove_duplicates entities) = true /\
  (forall d, In d entities ->
     exists u, In u (remove_duplicates entities) /\ same_fields d u = true) /\
  (forall d1 d2, In d1 entities -> In d2 entities -> same_fields d1 d2 = true ->
     exists u, In u (remove_duplicates entities) /\
       same_fields d1 u = true /\ same_fields d2 u = true).
Proof.
  intros Hd.
  pose proof (remove_duplicates_first_occurrences entities Hd) as Heq.
  assert (Forall (fun d => is_dict d = true) (first_occurrences entities)) as Hfo.
  { rewrite List.Forall_forall in *. intros d Hin.
    apply Hd. exact (first_occurrences_In [] entities d Hin). }
  assert (forall d, In d entities ->
            exists u, In u (remove_duplicates entities) /\ same_fields d u = true)
    as Hcover.
  { intros d Hin.
    destruct (first_occurrences_cover [] entities (List.Forall_nil _) Hd d Hin)
      as [(u & Hu & E) | E]; [| discriminate].
    exists (sorted u). rewrite Heq. split; [apply in_map; exact Hu |].
    rewrite List.Forall_forall in Hd, Hfo.
    rewrite same_fields_sorted_r; [exact E | |]; apply is_dict_NoDup; auto. }
  repeat apply conj.
  - exact Heq.
  - rewrite Heq, (no_duplicates_map_sorted _ Hfo).
    apply first_occurrences_no_duplicates.
  - exact Hcover.
  - intros d1 d2 H1 H2 E. destruct (Hcover d1 H1) as (u & Hu & Eu).
    exists u. repeat split; try assumption.
    assert (List.NoDup (keys u)) as Hku.
    { rewrite Heq in Hu. apply in_map_iff in Hu as (u0 & <- & Hu0).
      rewrite List.Forall_forall in Hfo. apply sorted_NoDup, is_dict_NoDup; auto. }
    rewrite List.Forall_forall in Hd.
    apply (same_fields_trans d2 d1 u).
    + apply is_dict_NoDup; auto.
    + apply is_dict_NoDup; auto.
    + exact Hku.
    + rewrite same_fields_sym. exact E.
    + exact Eu.
Qed.

Lemma C6_remove_duplicates_keeps_first_witness :
  remove_duplicates example_payloads = map sorted (first_occurrences example_payloads) /\
  no_duplicates (remove_duplicates example_payloads) = true /\
  (forall d, In d example_payloads ->
     exists u, In u (remove_duplicates example_payloads) /\ same_fields d u = true) /\
  (forall d1 d2, In d1 example_payloads -> In d2 example_payloads ->
     same_fields d1 d2 = true ->
     exists u, In u (remove_duplicates example_payloads) /\
       same_fields d1 u = true /\ same_fields d2 u = true).
Proof.
  apply (C6_remove_duplicates_keeps_first example_payloads).
  repeat constructor.
Defined.

(** * Further properties *)

(** ** The filter compiler: outcomes *)

(** The compiler returns no filter exactly when both fields of the first
    entity fail their guard: each is falsy (absent, 0, empty, False) or
    is the sentinel. *)
Theorem compile_None_iff (e : Entity) (rest : list Entity) :
  compile_first e rest = Ok None <->
  (Py.truthy (Publisher e) = false \/ Publisher e = unknown) /\
  (Py.truthy (Year e) = false \/ Year e = unknown).
Proof.
  assert (forall v, emits v = false <-> Py.truthy v = false \/ v = unknown) as Hg.
  { intros v. rewrite <- not_true_iff_false, emits_true. split.
    - intros H. destruct (Py.truthy v) eqn:Ht; [right | left; reflexivity].
      destruct (Py.eqb v unknown) eqn:E; [apply eqb_unknown; exact E |].
      destruct H. split; [reflexivity |]. intros ->. discriminate E.
    - intros [H | ->] [Ht Hu]; [congruence | auto]. }
  rewrite <- !Hg, compile_first_cases.
  destruct (emits (Publisher e)), (emits (Year e)); simpl;
    try destruct (Py.int (Year e)); simpl;
    split; try discriminate; try tauto; intros [? ?]; discriminate.
Qed.

(** The compiler raises exactly when the Year of the first entity passes
    its guard (it is truthy and is not "unknown") and [int] raises on it,
    and it raises the exception of [int] unchanged; neither the Publisher
    nor a later entity makes it raise. *)
Theorem compile_raises_iff (e : Entity) (rest : list Entity) (err : exception) :
  compile_first e rest = Raise err <->
  Py.truthy (Year e) = true /\ Year e <> unknown /\ Py.int (Year e) = Raise err.
Proof.
  rewrite compile_first_cases.
  assert (Py.truthy (Year e) = true /\ Year e <> unknown /\
          Py.int (Year e) = Raise err <->
          emits (Year e) = true /\ Py.int (Year e) = Raise err) as ->.
  { rewrite emits_true. tauto. }
  destruct (emits (Publisher e)), (emits (Year e)); simpl;
    try destruct (Py.int (Year e)); simpl;
    split; try discriminate; try (intros [? ?]; discriminate);
    try (intros [= ->]; split; reflexivity);
    intros [_ [= ->]]; reflexivity.
Qed.

(** A returned filter has one or two children; each child is the equality
    on Publisher carrying the first entity's value unchanged, or the lower
    bound on Year carrying the integer [int] gives; no key is constrained
    twice, and a Publisher child is never preceded by a Year child. *)
Theorem compile_filter_shape (e : Entity) (rest : list Entity) (f : metadata_filter) :
  compile_first e rest = Ok (Some f) ->
  (1 <= length (andAll f) <= 2)%nat /\
  Forall (fun p => p = equals "Publisher" (Publisher e) \/
                   exists z, Py.int (Year e) = Ok z /\
                             p = greaterThanOrEquals "Year" (PyInt z)) (andAll f) /\
  List.NoDup (map predicate_key (andAll f)) /\
  (forall pre post z, andAll f = pre ++ greaterThanOrEquals "Year" z :: post -> post = []).
Proof.
  rewrite compile_first_cases.
  destruct (emits (Publisher e)), (emits (Year e)); simpl;
    try destruct (Py.int (Year e)) as [z |] eqn:Hz; simpl;
    intros [= <-]; cbn [andAll length map predicate_key];
    (split; [lia |]);
    (split; [repeat constructor; eauto |]);
    (split; [repeat constructor; simpl; intuition discriminate |]);
    intros [| p1 [| p2 [| p3 pre]]] post z' Heq; simpl in Heq;
    try discriminate Heq; try (injection Heq; intros; subst; reflexivity);
    injection Heq; intros; subst;
    repeat match goal with H : _ = _ ++ _ :: _ |- _ =>
      apply (f_equal length) in H; rewrite ?length_app in H; simpl in H; lia end.
Qed.

Lemma compile_filter_shape_witness :
  (1 <= length [equals "Publisher" (PyStr "Rockstar Games");
                greaterThanOrEquals "Year" (PyInt 2010)] <= 2)%nat.
Proof.
  apply (compile_filter_shape (mkEntity (PyStr "Rockstar Games") (PyInt 2010)) []
           {| andAll := [equals "Publisher" (PyStr "Rockstar Games");
                         greaterThanOrEquals "Year" (PyInt 2010)] |}).
  reflexivity.
Defined.

Lemma compile_schema_typed_returns_witness :
  exists r, compile_first (mkEntity PyNone (PyInt 2015)) [] = Ok r.
Proof.
  apply (compile_schema_typed_returns (mkEntity PyNone (PyInt 2015)) []).
  reflexivity.
Defined.

(** A Year given as a string of digits compiles like the integer it
    denotes, as long as that integer is not 0 (the integer 0 is dropped by
    the guard, the string "0" is not). *)
Theorem compile_numeric_string_year (p : pyval) (s : string) (z : Z)
    (rest : list Entity) :
  Py.int_of_str s = Some z -> z <> 0 ->
  compile_first (mkEntity p (PyStr s)) rest = compile_first (mkEntity p (PyInt z)) rest.
Proof.
  intros Hs Hz. rewrite !compile_first_cases. cbn [Publisher Year].
  assert (emits (PyStr s) = true) as ->.
  { apply emits_true. split.
    - simpl. apply negb_true_iff. destruct (String.eqb_spec s "") as [-> | H];
        [discriminate Hs | reflexivity].
    - intros [= ->]. discriminate Hs. }
  assert (emits (PyInt z) = true) as ->.
  { apply emits_true. split; [| discriminate].
    simpl. apply negb_true_iff, Z.eqb_neq, Hz. }
  simpl. rewrite Hs. reflexivity.
Qed.

Lemma compile_numeric_string_year_witness :
  compile_first (mkEntity (PyStr "Rockstar Games") (PyStr "2010")) [] =
  compile_first (mkEntity (PyStr "Rockstar Games") (PyInt 2010)) [].
Proof.
  apply (compile_numeric_string_year (PyStr "Rockstar Games") "2010" 2010 []);
    [reflexivity | discriminate].
Defined.

(** ** The validator: order, head, prefixes, field order, idempotence *)

Lemma remove_duplicates_fold (entities unique_entities : list payload)
    (seen : list (list (string * pyval))) :
  exists kept,
    (fold_left remove_duplicates_step entities (unique_entities, seen)).1 =
      unique_entities ++ kept /\
    kept `sublist_of` map (fun d => dict (sorted d)) entities.
Proof.
  revert unique_entities seen.
  induction entities as [| a l IH]; intros acc seen.
  - exists []. split; [symmetry; apply app_nil_r | constructor].
  - cbn [fold_left map]. rewrite remove_duplicates_step_eq.
    destruct (in_seen (sorted a) seen).
    + destruct (IH acc seen) as (kept & -> & Hsub).
      exists kept. split; [reflexivity | apply sublist_cons, Hsub].
    + destruct (IH (acc ++ [dict (sorted a)]) (sorted a :: seen)) as (kept & -> & Hsub).
      exists (dict (sorted a) :: kept). split.
      * rewrite <- app_assoc. reflexivity.
      * apply sublist_skip, Hsub.
Qed.

(** The kept payloads are rebuilt input payloads, in the order of the
    input: the output is a subsequence of the input with every payload
    rebuilt from its sorted items, so it is never longer than the input. *)
Theorem remove_duplicates_subsequence (entities : list payload) :
  remove_duplicates entities `sublist_of` map (fun d => dict (sorted d)) entities /\
  (length (remove_duplicates entities) <= length entities)%nat.
Proof.
  unfold remove_duplicates.
  destruct (remove_duplicates_fold entities [] []) as (kept & -> & Hsub).
  split; [exact Hsub |].
  apply sublist_length in Hsub. rewrite length_map in Hsub. exact Hsub.
Qed.

(** The first payload is always kept, and comes first: a non-empty input
    never yields an empty output. *)
Theorem remove_duplicates_head (d : payload) (entities : list payload) :
  exists kept, remove_duplicates (d :: entities) = dict (sorted d) :: kept.
Proof.
  unfold remove_duplicates. cbn [fold_left].
  rewrite remove_duplicates_step_eq. cbn [in_seen existsb].
  destruct (remove_duplicates_fold entities ([] ++ [dict (sorted d)]) [sorted d])
    as (kept & -> & _).
  exists kept. reflexivity.
Qed.

(** Payloads that arrive later never change what was kept before: the
    output on a sequence is a prefix of the output on any extension. *)
Theorem remove_duplicates_prefix (l1 l2 : list payload) :
  remove_duplicates l1 `prefix_of` remove_duplicates (l1 ++ l2).
Proof.
  unfold remove_duplicates. rewrite fold_left_app.
  destruct (fold_left remove_duplicates_step l1 ([], [])) as [acc seen].
  destruct (remove_duplicates_fold l2 acc seen) as (kept & -> & _).
  exists kept. reflexivity.
Qed.

Lemma sorted_perm_eq (d d' : payload) :
  List.NoDup (keys d) -> Permutation d d' -> sorted d = sorted d'.
Proof.
  intros Hd P.
  assert (List.NoDup (keys d')) as Hd'.
  { exact (Permutation_NoDup (Permutation_map fst P) Hd). }
  apply (StronglySorted_unique_strong key_lt).
  - intros x1 x2 _ _ H1 H2. destruct (ltb_asym _ _ H1 H2).
  - apply sorted_strongly, Hd.
  - apply sorted_strongly, Hd'.
  - rewrite (sorted_perm d), (sorted_perm d'). exact P.
Qed.

Lemma remove_duplicates_sorted_ext (l l' : list payload) :
  Forall2 (fun d d' => sorted d = sorted d') l l' ->
  remove_duplicates l = remove_duplicates l'.
Proof.
  intros H. unfold remove_duplicates. f_equal.
  generalize (@nil payload, @nil (list (string * pyval))).
  induction H as [| d d' l l' Hd Hl IH]; intros st; [reflexivity |].
  cbn [fold_left]. destruct st as [acc seen].
  rewrite !remove_duplicates_step_eq, Hd. apply IH.
Qed.

(** The order in which a payload lists its fields has no influence:
    reordering the fields inside any payloads leaves the output unchanged. *)
Theorem remove_duplicates_field_order (l l' : list payload) :
  Forall (fun d => is_dict d = true) l ->
  Forall2 (fun d d' => Permutation d d') l l' ->
  remove_duplicates l = remove_duplicates l'.
Proof.
  intros Hd H. apply remove_duplicates_sorted_ext.
  induction H as [| d d' l l' P Hl IH]; [constructor |].
  apply List.Forall_cons_iff in Hd as [Ha Hd].
  constructor; [| exact (IH Hd)].
  apply sorted_perm_eq; [apply is_dict_NoDup, Ha | exact P].
Qed.

Lemma remove_duplicates_field_order_witness :
  remove_duplicates
    [[("Year", PyInt 2010); ("Publisher", PyStr "Rockstar Games")];
     [("Publisher", PyStr "unknown"); ("Year", PyInt 1999)]] =
  remove_duplicates
    [[("Publisher", PyStr "Rockstar Games"); ("Year", PyInt 2010)];
     [("Year", PyInt 1999); ("Publisher", PyStr "unknown")]].
Proof.
  apply remove_duplicates_field_order.
  - repeat constructor.
  - repeat first [apply List.Forall2_cons | apply List.Forall2_nil | apply perm_swap].
Defined.

Lemma first_occurrences_fixed (earlier l : list payload) :
  no_duplicates l = true ->
  (forall d, In d l -> existsb (same_fields d) earlier = false) ->
  first_occurrences_from earlier l = l.
Proof.
  revert earlier. induction l as [| a l IH]; intros earlier Hn Hf; [reflexivity |].
  simpl in Hn. apply andb_true_iff in Hn as [Ha Hn].
  apply negb_true_iff in Ha. simpl.
  rewrite (Hf a (or_introl eq_refl)). f_equal. apply IH; [exact Hn |].
  intros d Hd. simpl. rewrite (Hf d (or_intror Hd)), orb_false_r.
  rewrite same_fields_sym. exact (proj1 (existsb_false _ _) Ha d Hd).
Qed.

(** Deduplicating twice changes nothing: the output is duplicate-free and
    in key order, and the validator leaves such a sequence as it is. *)
Theorem remove_duplicates_idempotent (entities : list payload) :
  Forall (fun d => is_dict d = true) entities ->
  remove_duplicates (remove_duplicates entities) = remove_duplicates entities.
Proof.
  intros Hd.
  assert (Forall (fun d => is_dict d = true) (first_occurrences entities)) as Hfo.
  { rewrite List.Forall_forall in *. intros d Hin.
    apply Hd. exact (first_occurrences_In [] entities d Hin). }
  rewrite (remove_duplicates_first_occurrences entities Hd).
  set (kept := first_occurrences entities) in *.
  assert (Forall (fun d => is_dict d = true) (map sorted kept)) as Hs.
  { rewrite List.Forall_forall in *. intros u Hu.
    apply in_map_iff in Hu as (d & <- & Hin).
    apply is_dict_NoDup, sorted_NoDup, is_dict_NoDup, Hfo, Hin. }
  rewrite (remove_duplicates_first_occurrences _ Hs).
  unfold first_occurrences at 1. rewrite first_occurrences_fixed.
  - rewrite map_map. apply map_ext_in. intros d Hin.
    rewrite List.Forall_forall in Hfo.
    apply sorted_perm_eq; [| apply sorted_perm].
    apply sorted_NoDup, is_dict_NoDup, Hfo, Hin.
  - rewrite (no_duplicates_map_sorted _ Hfo).
    apply first_occurrences_no_duplicates.
  - reflexivity.
Qed.

Lemma remove_duplicates_idempotent_witness :
  remove_duplicates (remove_duplicates example_payloads) =
  remove_duplicates example_payloads.
Proof.
  apply (remove_duplicates_idempotent example_payloads). repeat constructor.
Defined.

(** ** The extractor and the orchestrator: outcomes *)

(** The scan returns the first of the inputs of the matching blocks. *)
Theorem scan_content_head (blocks : list ContentBlock) :
  scan_content blocks = head (omap tool_input blocks).
Proof.
  induction blocks as [| c blocks IH]; [reflexivity |].
  cbn [scan_content omap list_omap]. destruct (tool_input c); [reflexivity | exact IH].
Qed.

Section Outcomes.

Context {Response : Type}.
Variable parse_obj : json -> result ExtractedEntities.
Variable converse : ConverseRequest -> result ConverseResponse.
Variable retrieve : RetrieveRequest -> result Response.
Variable kb_id : string.

(** The extractor returns [None] exactly when the model call returned and
    either no block matches or the first matching input is falsy (an empty
    object); a validation that returns never yields [None]. *)
Theorem extract_entities_None_iff text props :
  extract_entities parse_obj converse text props = Ok None <->
  exists response,
    converse (converse_request text props) = Ok response /\
    (scan_content (content response) = None \/
     exists j, scan_content (content response) = Some j /\ json_truthy j = false).
Proof.
  unfold extract_entities, extract_from_response.
  destruct (converse (converse_request text props)) as [response | e];
    cbn [mbind result_bind].
  - destruct (scan_content (content response)) as [j |] eqn:Hscan.
    + destruct (json_truthy j) eqn:Ht.
      * split.
        -- destruct (parse_obj j); discriminate.
        -- intros (r & Hr & H). injection Hr as <-. rewrite Hscan in H.
           destruct H as [H | (j' & Hj & H)]; [discriminate H |].
           injection Hj as <-. congruence.
      * split; [| reflexivity]. intros _. exists response. eauto.
    + split; [| reflexivity]. intros _. exists response. eauto.
  - split; [discriminate |]. intros (r & H & _). discriminate H.
Qed.

(** The extractor raises exactly when the model call raises, or the
    validation of the first matching, truthy input raises; the exception
    is passed on unchanged. *)
Theorem extract_entities_raises_iff text props err :
  extract_entities parse_obj converse text props = Raise err <->
  converse (converse_request text props) = Raise err \/
  exists response j,
    converse (converse_request text props) = Ok response /\
    scan_content (content response) = Some j /\ json_truthy j = true /\
    parse_obj j = Raise err.
Proof.
  unfold extract_entities, extract_from_response.
  destruct (converse (converse_request text props)) as [response | e];
    cbn [mbind result_bind].
  - destruct (scan_content (content response)) as [j |] eqn:Hscan.
    + destruct (json_truthy j) eqn:Ht.
      * split.
        -- intros H. right. exists response, j. repeat split; try assumption.
           destruct (parse_obj j); [discriminate | injection H as ->; reflexivity].
        -- intros [H | (r & j' & Hr & Hj & _ & Hp)]; [discriminate H |].
           injection Hr as <-. rewrite Hscan in Hj.
           injection Hj as <-. rewrite Hp. reflexivity.
      * split; [discriminate |].
        intros [H | (r & j' & Hr & Hj & H & _)]; [discriminate H |].
        injection Hr as <-. rewrite Hscan in Hj.
        injection Hj as <-. congruence.
    + split; [discriminate |].
      intros [H | (r & j' & Hr & H & _)]; [discriminate H |].
      injection Hr as <-. rewrite Hscan in H. discriminate H.
  - split; [intros [= ->]; left; reflexivity |].
    intros [[= ->] | (r & j & H & _)]; [reflexivity | discriminate].
Qed.

(** End to end: the request sent to the retrieval endpoint carries the
    filter compiled from the first entity of the first matching tool
    call; the blocks after that call and the entities after the first have
    no influence. *)
Theorem process_query_end_to_end text props response pre t post e rest metadata_filter :
  converse (converse_request text props) = Ok response ->
  content response = pre ++ toolUse t :: post ->
  (forall t', toolUse t' ∈ pre -> name t' <> "extract_entities") ->
  name t = "extract_entities" ->
  json_truthy (input t) = true ->
  parse_obj (input t) = Ok (mkExtractedEntities (e :: rest)) ->
  compile_first e [] = Ok metadata_filter ->
  process_query parse_obj converse retrieve kb_id text props =
    retrieve (retrieve_request kb_id text metadata_filter) /\
  request_filter (retrieve_request kb_id text metadata_filter) = Some metadata_filter.
Proof.
  intros Hresp Hcontent Hpre Hname Htruthy Hparse Hcompile. split.
  - apply (process_query_request parse_obj converse retrieve kb_id text props
             (Some (mkExtractedEntities (e :: rest)))).
    + unfold extract_entities. rewrite Hresp. cbn [mbind result_bind].
      unfold extract_from_response.
      rewrite Hcontent, (scan_content_first_match pre post t Hpre Hname).
      rewrite Htruthy, Hparse. reflexivity.
    + exact Hcompile.
  - apply request_filter_present.
Qed.

(** The request offers the tool under the name [tool_properties['tool_name']],
    but the response is scanned for the literal name [extract_entities]:
    when the two differ, a call of the offered tool is not recognised and
    the extractor returns [None]. *)
Theorem offered_tool_name_not_scanned text props id j :
  tool_spec_name <$> offered_tools (converse_request text props) =
    [Some (JStr (tool_name props))] /\
  (tool_name props <> "extract_entities" ->
   converse (converse_request text props) =
     Ok (mkConverseResponse [toolUse (mkToolUse id (tool_name props) j)]) ->
   extract_entities parse_obj converse text props = Ok None).
Proof.
  split; [reflexivity |].
  intros Hne Hresp. unfold extract_entities. rewrite Hresp.
  cbn [mbind result_bind]. unfold extract_from_response.
  cbn [content scan_content tool_input name].
  destruct (String.eqb_spec (tool_name props) "extract_entities"); [tauto | reflexivity].
Qed.

End Outcomes.

Lemma process_query_end_to_end_witness :
  process_query (scripted_parse_obj (Ok rockstar_entities))
    (scripted_converse two_calls_response) recording_retrieve
    "KB12345678" example_query tool_properties
  = recording_retrieve
      (retrieve_request "KB12345678" example_query
         (Some {| andAll := [equals "Publisher" (PyStr "Rockstar Games");
                             greaterThanOrEquals "Year" (PyInt 2010)] |})) /\
  request_filter
    (retrieve_request "KB12345678" example_query
       (Some {| andAll := [equals "Publisher" (PyStr "Rockstar Games");
                           greaterThanOrEquals "Year" (PyInt 2010)] |}))
  = Some (Some {| andAll := [equals "Publisher" (PyStr "Rockstar Games");
                             greaterThanOrEquals "Year" (PyInt 2010)] |}).
Proof.
  apply (process_query_end_to_end (scripted_parse_obj (Ok rockstar_entities))
           (scripted_converse two_calls_response) recording_retrieve
           "KB12345678" example_query tool_properties two_calls_response
           [text "I will extract the entities.";
            toolUse (mkToolUse "tooluse_0" "lookup_weather" (JDict []))]
           (mkToolUse "tooluse_1" "extract_entities" rockstar_input)
           [toolUse (mkToolUse "tooluse_2" "extract_entities" other_input)]
           (mkEntity (PyStr "Rockstar Games") (PyInt 2010)) []);
    [reflexivity | reflexivity | no_match_in_list | reflexivity ..].
Defined.

Lemma offered_tool_name_not_scanned_witness :
  extract_entities (scripted_parse_obj (Ok rockstar_entities))
    (scripted_converse
       (mkConverseResponse
          [toolUse (mkToolUse "tooluse_1" "find_games" rockstar_input)]))
    example_query
    (mkToolProperties "find_games" "Extract the publisher and the year."
       (JList []) (JList []) (JDict []))
  = Ok None.
Proof.
  apply (proj2 (offered_tool_name_not_scanned
                  (scripted_parse_obj (Ok rockstar_entities))
                  (scripted_converse
                     (mkConverseResponse
                        [toolUse (mkToolUse "tooluse_1" "find_games" rockstar_input)]))
                  example_query
                  (mkToolProperties "find_games" "Extract the publisher and the year."
                     (JList []) (JList []) (JDict []))
                  "tooluse_1" rockstar_input));
    [discriminate | reflexivity].
Defined.

(** ** A Year that is no integer and the entity schema *)






(** ** The calls the orchestrator issues *)

Lemma traced_bind_outcome {A B : Type} (m : traced A) (f : A -> traced B) :
  outcome (m ≫= f) = outcome m ≫= (fun a => outcome (f a)).
Proof.
  unfold mbind, traced_bind, result_bind. destruct (outcome m); reflexivity.
Qed.

Lemma traced_bind_calls {A B : Type} (m : traced A) (f : A -> traced B) :
  calls (m ≫= f) =
    calls m ++ match outcome m with
               | Ok a => calls (f a)
               | Raise _ => []
               end.
Proof.
  unfold mbind, traced_bind. destruct (outcome m); cbn [calls];
    [reflexivity | symmetry; apply app_nil_r].
Qed.

(** Recording the calls does not change what the orchestrator returns. *)
Lemma process_query_traced_outcome {Response : Type}
    (parse_obj : json -> result ExtractedEntities)
    (converse : ConverseRequest -> result ConverseResponse)
    (retrieve : RetrieveRequest -> result Response)
    (kb_id text : string) (props : ToolProperties) :
  outcome (process_query_traced parse_obj converse retrieve kb_id text props) =
  process_query parse_obj converse retrieve kb_id text props.
Proof.
  unfold process_query_traced, process_query, extract_entities_traced,
    extract_entities, invoke_converse, invoke_retrieve, local,
    mbind, traced_bind, result_bind.
  cbn [outcome calls].
  destruct (converse (converse_request text props)) as [response |];
    cbn [outcome calls]; [| reflexivity].
  destruct (extract_from_response parse_obj response) as [ees |];
    cbn [outcome calls]; [| reflexivity].
  destruct (construct_metadata_filter ees); reflexivity.
Qed.

Lemma process_query_traced_calls {Response : Type}
    (parse_obj : json -> result ExtractedEntities)
    (converse : ConverseRequest -> result ConverseResponse)
    (retrieve : RetrieveRequest -> result Response)
    (kb_id text : string) (props : ToolProperties) :
  calls (process_query_traced parse_obj converse retrieve kb_id text props) =
    converse_call (converse_request text props) ::
    match extract_entities parse_obj converse text props ≫= construct_metadata_filter with
    | Ok metadata_filter => [retrieve_call (retrieve_request kb_id text metadata_filter)]
    | Raise _ => []
    end.
Proof.
  unfold process_query_traced, extract_entities_traced,
    extract_entities, invoke_converse, invoke_retrieve, local,
    mbind, traced_bind, result_bind.
  cbn [outcome calls].
  destruct (converse (converse_request text props)) as [response |];
    cbn [outcome calls app]; [| reflexivity].
  destruct (extract_from_response parse_obj response) as [ees |];
    cbn [outcome calls app]; [| reflexivity].
  destruct (construct_metadata_filter ees); reflexivity.
Qed.

(** With its calls recorded, the orchestrator returns what [process_query]
    returns.  It first calls the model, once.  It then calls the
    retrieval endpoint, once and with the compiled filter, exactly when
    extraction and compilation both return; when either raises, the model
    call is the only call and no retrieval is attempted. *)
Theorem process_query_calls {Response : Type}
    (parse_obj : json -> result ExtractedEntities)
    (converse : ConverseRequest -> result ConverseResponse)
    (retrieve : RetrieveRequest -> result Response)
    (kb_id text : string) (props : ToolProperties) :
  outcome (process_query_traced parse_obj converse retrieve kb_id text props) =
    process_query parse_obj converse retrieve kb_id text props /\
  calls (process_query_traced parse_obj converse retrieve kb_id text props) =
    converse_call (converse_request text props) ::
    match extract_entities parse_obj converse text props ≫= construct_metadata_filter with
    | Ok metadata_filter => [retrieve_call (retrieve_request kb_id text metadata_filter)]
    | Raise _ => []
    end.
Proof.
  split; [apply process_query_traced_outcome | apply process_query_traced_calls].
Qed.

Example process_query_calls_rejected_input :
  calls (process_query_traced (scripted_parse_obj (Raise ValidationError))
           (scripted_converse next_year_response) recording_retrieve
           "KB12345678" example_query tool_properties)
  = [converse_call (converse_request example_query tool_properties)].
Proof. reflexivity. Qed.
